(** * A shallow embedding of [manage.py] (Flask-Large-Application-Example)

    The module is the management entry point: it parses the command line
    with docopt, registers the operation handlers with the [@command]
    decorator, configures logging, validates the port flag and runs the
    chosen handler.  Calls into external libraries (Flask, Tornado, Celery,
    SQLAlchemy) are recorded as events of a trace; the process-wide state
    the module mutates (the [command.chosen] attribute and the root logger)
    is threaded explicitly. *)

From stdpp Require Import base gmap strings list.
From Stdlib Require Import ZArith Ascii String.
Open Scope Z_scope.

(* ------------------------------------------------------------------ *)
(** ** Python values held in the docopt options mapping *)

(** docopt returns a dict whose values are booleans (commands and
    switches), strings (options with an argument) or [None]. *)
Inductive optval :=
| VBool (b : bool)
| VStr (s : string)
| VNone.

(** Python truthiness, as used by [if OPTIONS[...]:]. *)
Definition truthy (v : optval) : bool :=
  match v with
  | VBool b => b
  | VStr s => negb (String.eqb s "")
  | VNone => false
  end.

(** The operations of the usage grammar, in the order in which the
    decorated functions are defined in the module. *)
Definition commands : list string :=
  ["devserver"; "tornadoserver"; "celerydev"; "celerybeat";
   "celeryworker"; "shell"; "create_all"].

(** A command line accepted by the usage grammar: one operation and the
    optional flags [-p NUM], [-l DIR] and [--config_prod]. *)
Record invocation := {
  inv_cmd : string;
  inv_port : option string;
  inv_log_dir : option string;
  inv_config_prod : bool
}.

(** The dict [OPTIONS = docopt(__doc__)] for an accepted command line: every
    command of the usage text is a key (true for the chosen one), every
    option is a key, [--port] defaults to ["5000"] and [--log_dir] to
    [None]. *)
Definition docopt_options (inv : invocation) : gmap string optval :=
  <[ "--config_prod" := VBool (inv_config_prod inv) ]>
  (<[ "--help" := VBool false ]>
  (<[ "--log_dir" := match inv_log_dir inv with Some d => VStr d | None => VNone end ]>
  (<[ "--port" := VStr (default "5000" (inv_port inv)) ]>
  (foldr (fun c m => <[ c := VBool (String.eqb c (inv_cmd inv)) ]> m)
     ∅ commands)))).

(* ------------------------------------------------------------------ *)
(** ** Logging levels and handlers *)

Definition NOTSET := 0.
Definition DEBUG := 10.
Definition INFO := 20.
Definition WARN := 30.
Definition ERROR := 40.
Definition FATAL := 50.

(** Where a logging handler writes. *)
Inductive sink :=
| Stdout
| FileIn (dir : string).

Record handler := { h_sink : sink; h_level : Z }.

(** The records a logger emits at [lvl]: [Logger.isEnabledFor] compares
    with the logger level, then [callHandlers] passes the record to every
    handler whose level it reaches. *)
Definition emitted_to (root_level : Z) (hs : list handler) (lvl : Z) : list sink :=
  if root_level <=? lvl
  then map h_sink (filter (fun h => h_level h <=? lvl) hs)
  else [].

(* ------------------------------------------------------------------ *)
(** ** Events, exceptions and the process monad *)

(** Observable actions of the process, in program order. *)
Inductive event :=
| EOptionsParsed                          (* OPTIONS = docopt(__doc__) *)
| ESetChosen (name : string)              (* command.chosen = func *)
| ESignalInstalled                        (* signal.signal(SIGINT, ...) *)
| EPrint (msg : string)                   (* print(...) *)
| EHandlerEnter (name : string)           (* getattr(command, 'chosen')() *)
| ECreateApp (config : string) (no_sql : bool)
| ELogMessages (port : string)            (* log_messages(app, port, ...) *)
| EAppRun (host : string) (port : Z)      (* app.run(host=..., port=int(...)) *)
| EHttpBind (port : string)               (* http_server.bind(...) *)
| EHttpStart (procs : Z)                  (* http_server.start(0) *)
| EIOLoopStart                            (* IOLoop.instance().start() *)
| ECeleryLoggingOff                       (* Logging._setup = True *)
| ECeleryMain (args : list string)        (* celery_main(args) *)
| EAppCtxEnter                            (* with app.app_context(): *)
| EAppCtxExit
| EAppCtxPush                             (* app.app_context().push() *)
| EShellRun                               (* Shell(...).run(...) *)
| EDbCreateAll.                           (* db.create_all() *)

Inductive exn :=
| KeyError (msg : string)
| AttributeError (msg : string)
| ValueError (msg : string).

(** How a computation ends: normally, by [sys.exit(code)], or by an
    uncaught exception. *)
Inductive result (A : Type) :=
| Ok (a : A)
| Exit (code : Z)
| Raise (e : exn).
Arguments Ok {A} a.
Arguments Exit {A} code.
Arguments Raise {A} e.

(** The process-wide state the module touches. *)
Record pstate := {
  trace : list event;
  chosen : option string;        (* the attribute command.chosen *)
  root_level : Z;                (* logging.getLogger().level *)
  root_handlers : list handler   (* logging.getLogger().handlers *)
}.

(** A fresh interpreter: empty trace, no [chosen] attribute, root logger
    at its default level WARNING and without handlers. *)
Definition init_state : pstate :=
  {| trace := []; chosen := None; root_level := WARN; root_handlers := [] |}.

Definition M (A : Type) := pstate -> result A * pstate.

Definition ret {A} (a : A) : M A := fun s => (Ok a, s).
Definition bind {A B} (m : M A) (k : A -> M B) : M B :=
  fun s => match m s with
           | (Ok a, s') => k a s'
           | (Exit c, s') => (Exit c, s')
           | (Raise e, s') => (Raise e, s')
           end.
Notation "x <-- m ;; k" := (bind m (fun x => k))
  (at level 100, m at next level, right associativity).
Notation "m ;;; k" := (bind m (fun _ => k))
  (at level 100, right associativity).

Definition sys_exit {A} (code : Z) : M A := fun s => (Exit code, s).
Definition raise {A} (e : exn) : M A := fun s => (Raise e, s).
Definition emit (e : event) : M unit :=
  fun s => (Ok tt, {| trace := trace s ++ [e]; chosen := chosen s;
                      root_level := root_level s; root_handlers := root_handlers s |}).
Definition set_chosen (name : string) : M unit :=
  fun s => (Ok tt, {| trace := trace s ++ [ESetChosen name]; chosen := Some name;
                      root_level := root_level s; root_handlers := root_handlers s |}).
Definition get_chosen : M (option string) := fun s => (Ok (chosen s), s).
Definition root_set_level (lvl : Z) : M unit :=
  fun s => (Ok tt, {| trace := trace s; chosen := chosen s;
                      root_level := lvl; root_handlers := root_handlers s |}).
Definition root_add_handler (h : handler) : M unit :=
  fun s => (Ok tt, {| trace := trace s; chosen := chosen s;
                      root_level := root_level s; root_handlers := root_handlers s ++ [h] |}).

(** [OPTIONS[key]]: a missing key raises [KeyError]. *)
Definition opt_get (opts : gmap string optval) (key : string) : M optval :=
  match opts !! key with
  | Some v => ret v
  | None => raise (KeyError key)
  end.

(** [str(v)] / ['{}'.format(v)] of an option value. *)
Definition py_str (v : optval) : string :=
  match v with
  | VStr s => s
  | VBool true => "True"
  | VBool false => "False"
  | VNone => "None"
  end.

(* ------------------------------------------------------------------ *)
(** ** [str.isdigit] and [int] on the port string *)

Definition is_digit (c : ascii) : bool :=
  (48 <=? nat_of_ascii c)%nat && (nat_of_ascii c <=? 57)%nat.

(** Python 2 [str.isdigit]: false on the empty string, otherwise true iff
    every character is a decimal digit. *)
Definition isdigit (s : string) : bool :=
  match s with
  | EmptyString => false
  | _ => forallb is_digit (list_ascii_of_string s)
  end.

Definition Z_of_digits (s : string) : Z :=
  fold_left (fun acc c => acc * 10 + (Z.of_nat (nat_of_ascii c) - 48))
    (list_ascii_of_string s) 0.

(** [int(s)] on the port strings that reach it: only strings that passed
    the [isdigit] check of [__main__] get to the handlers. *)
Definition py_int (s : string) : M Z :=
  if isdigit s then ret (Z_of_digits s) else raise (ValueError "int").

(* ------------------------------------------------------------------ *)
(** ** [CustomFormatter] *)

(** [CustomFormatter.LEVEL_MAP] (FATAL and CRITICAL share the key 50). *)
Definition LEVEL_MAP : gmap Z string :=
  <[ FATAL := "F" ]> (<[ ERROR := "E" ]> (<[ WARN := "W" ]>
  (<[ INFO := "I" ]> (<[ DEBUG := "D" ]> ∅)))).

(** The fields of a log record that the format string uses. *)
Record log_record := {
  levelno : Z;
  asctime : string;
  msecs : string;
  process : string;
  filename : string;
  lineno : string;
  message : string
}.

(** [logging.Formatter.format] with the format string of [setup_logging]
    once [record.levelletter] is set:
    ['%(levelletter)s%(asctime)s.%(msecs)d %(process)d %(filename)s:%(lineno)d] %(message)s']. *)
Definition base_format (letter : string) (r : log_record) : string :=
  letter +:+ asctime r +:+ "." +:+ msecs r +:+ " " +:+ process r +:+ " "
  +:+ filename r +:+ ":" +:+ lineno r +:+ "] " +:+ message r.

(** [CustomFormatter.format]: [self.LEVEL_MAP[record.levelno]] raises
    [KeyError] on a level that is not a key. *)
Definition format (r : log_record) : result string :=
  match LEVEL_MAP !! levelno r with
  | Some letter => Ok (base_format letter r)
  | None => Raise (KeyError "levelno")
  end.

(* ------------------------------------------------------------------ *)
(** ** [setup_logging] *)

(** The two filesystem queries [setup_logging] makes. *)
Record fs := {
  isdir : string -> bool;          (* os.path.isdir *)
  writable : string -> bool        (* os.access(_, os.W_OK) *)
}.

Definition setup_logging (env : fs) (opts : gmap string optval) : M unit :=
  ld <-- opt_get opts "--log_dir" ;;
  log_to_disk <--
    (if truthy ld then
       let d := py_str ld in
       if negb (isdir env d) then
         emit (EPrint ("ERROR: Directory " +:+ d +:+ " does not exist.")) ;;;
         sys_exit 1
       else if negb (writable env d) then
         emit (EPrint ("ERROR: No permissions to write to directory " +:+ d +:+ ".")) ;;;
         sys_exit 1
       else ret true
     else ret false) ;;
  let console_handler :=
    {| h_sink := Stdout; h_level := if log_to_disk then ERROR else DEBUG |} in
  root_set_level DEBUG ;;;
  root_add_handler console_handler.

(* ------------------------------------------------------------------ *)
(** ** [parse_options], the [@command] decorator and the handlers *)

Definition parse_options (opts : gmap string optval) : M string :=
  cp <-- opt_get opts "--config_prod" ;;
  ret (if truthy cp then "pypi_portal.config.Production"
       else "pypi_portal.config.Config").

(** The registration part of [command(func)], run when the decorated
    function is defined. *)
Definition command (opts : gmap string optval) (name : string) : M unit :=
  match opts !! name with
  | None => raise (KeyError ("Cannot register " +:+ name +:+
                             ", not mentioned in docstring/docopt."))
  | Some v => if truthy v then set_chosen name else ret tt
  end.

(** The seven [@command] definitions, in module order. *)
Fixpoint register_all (opts : gmap string optval) (names : list string) : M unit :=
  match names with
  | [] => ret tt
  | n :: ns => command opts n ;;; register_all opts ns
  end.

Definition devserver (opts : gmap string optval) : M unit :=
  cfg <-- parse_options opts ;;
  emit (ECreateApp cfg false) ;;;
  p <-- opt_get opts "--port" ;;
  emit (ELogMessages (py_str p)) ;;;
  n <-- py_int (py_str p) ;;
  emit (EAppRun "0.0.0.0" n).

Definition tornadoserver (opts : gmap string optval) : M unit :=
  cfg <-- parse_options opts ;;
  emit (ECreateApp cfg false) ;;;
  p <-- opt_get opts "--port" ;;
  emit (ELogMessages (py_str p)) ;;;
  emit (EHttpBind (py_str p)) ;;;
  emit (EHttpStart 0) ;;;
  emit EIOLoopStart.

Definition celery_handler (args : list string) (opts : gmap string optval) : M unit :=
  cfg <-- parse_options opts ;;
  emit (ECreateApp cfg true) ;;;
  emit ECeleryLoggingOff ;;;
  emit EAppCtxEnter ;;;
  emit (ECeleryMain args) ;;;
  emit EAppCtxExit.

Definition celerydev := celery_handler
  ["celery"; "worker"; "-B"; "-s"; "/tmp/celery.db"; "--concurrency=5"].
Definition celerybeat := celery_handler
  ["celery"; "beat"; "-C"; "--pidfile=celery_beat.pid"].
Definition celeryworker := celery_handler
  ["celery"; "worker"; "-C"; "--autoscale=10,1"; "--without-gossip"].

Definition shell (opts : gmap string optval) : M unit :=
  cfg <-- parse_options opts ;;
  emit (ECreateApp cfg false) ;;;
  emit EAppCtxPush ;;;
  emit EShellRun.

Definition create_all (opts : gmap string optval) : M unit :=
  cfg <-- parse_options opts ;;
  emit (ECreateApp cfg false) ;;;
  emit EAppCtxEnter ;;;
  emit EDbCreateAll ;;;
  emit EAppCtxExit.

(** Calling the function stored in [command.chosen]. *)
Definition run_handler (name : string) (opts : gmap string optval) : M unit :=
  if String.eqb name "devserver" then devserver opts
  else if String.eqb name "tornadoserver" then tornadoserver opts
  else if String.eqb name "celerydev" then celerydev opts
  else if String.eqb name "celerybeat" then celerybeat opts
  else if String.eqb name "celeryworker" then celeryworker opts
  else if String.eqb name "shell" then shell opts
  else if String.eqb name "create_all" then create_all opts
  else ret tt.

(* ------------------------------------------------------------------ *)
(** ** The module body and [if __name__ == '__main__':] *)

(** [if not OPTIONS['--port'].isdigit(): print(...); sys.exit(1)]. *)
Definition check_port (opts : gmap string optval) : M unit :=
  p <-- opt_get opts "--port" ;;
  match p with
  | VStr s => if isdigit s then ret tt
              else emit (EPrint "ERROR: Port should be a number.") ;;; sys_exit 1
  | _ => raise (AttributeError "isdigit")
  end.

(** [getattr(command, 'chosen')()]. *)
Definition call_chosen (opts : gmap string optval) : M unit :=
  c <-- get_chosen ;;
  match c with
  | None => raise (AttributeError "chosen")
  | Some f => emit (EHandlerEnter f) ;;; run_handler f opts
  end.

(** The body of [if __name__ == '__main__':]. *)
Definition main_block (env : fs) (opts : gmap string optval) : M unit :=
  emit ESignalInstalled ;;;
  setup_logging env opts ;;;
  check_port opts ;;;
  call_chosen opts.

(** Executing the script: the module-level [OPTIONS = docopt(__doc__)],
    the seven decorated definitions, then the [__main__] block. *)
Definition run_module (env : fs) (opts : gmap string optval) : M unit :=
  emit EOptionsParsed ;;;
  register_all opts commands ;;;
  main_block env opts.

(** The process exit status: 0 on normal completion, the argument of
    [sys.exit], 1 for an uncaught exception. *)
Definition exit_code {A} (r : result A) : Z :=
  match r with
  | Ok _ => 0
  | Exit c => c
  | Raise _ => 1
  end.

(** Running the script on a command line in a fresh interpreter. *)
Definition run (env : fs) (inv : invocation) : result unit * pstate :=
  run_module env (docopt_options inv) init_state.

Definition handler_entries (t : list event) : list string :=
  omap (fun e => match e with EHandlerEnter n => Some n | _ => None end) t.

(* ------------------------------------------------------------------ *)
(** ** Notions used to state the properties *)

(** The commands of an invocation that docopt marks as chosen. *)
Definition selected (inv : invocation) : list string :=
  List.filter (fun c => String.eqb c (inv_cmd inv)) commands.

(** The state after the module body: options parsed, decorators run. *)
Definition after_module (inv : invocation) : pstate :=
  {| trace := EOptionsParsed :: map ESetChosen (selected inv);
     chosen := fold_left (fun _ x => Some x) (selected inv) None;
     root_level := WARN; root_handlers := [] |}.

(** A log-directory flag value that lets [setup_logging] go on. *)
Definition log_dir_ok (env : fs) (ld : option string) : bool :=
  match ld with
  | None => true
  | Some d => String.eqb d "" || (isdir env d && writable env d)
  end.

(** The level [setup_logging] gives the console handler when it goes on. *)
Definition console_level (ld : option string) : Z :=
  match ld with
  | Some d => if String.eqb d "" then DEBUG else ERROR
  | None => DEBUG
  end.

(** The state after [setup_logging] succeeded from [s]. *)
Definition logging_set (s : pstate) (lvl : Z) : pstate :=
  {| trace := trace s; chosen := chosen s; root_level := DEBUG;
     root_handlers := root_handlers s ++ [{| h_sink := Stdout; h_level := lvl |}] |}.

(** The state after printing [msg] from [s]. *)
Definition printed (s : pstate) (msg : string) : pstate :=
  {| trace := trace s ++ [EPrint msg]; chosen := chosen s;
     root_level := root_level s; root_handlers := root_handlers s |}.

Definition missing_msg (d : string) : string :=
  "ERROR: Directory " +:+ d +:+ " does not exist.".
Definition unwritable_msg (d : string) : string :=
  "ERROR: No permissions to write to directory " +:+ d +:+ ".".
Definition port_msg : string := "ERROR: Port should be a number.".

(** The state in which the [__main__] block has installed the SIGINT
    handler. *)
Definition after_signal (inv : invocation) : pstate :=
  {| trace := trace (after_module inv) ++ [ESignalInstalled];
     chosen := chosen (after_module inv); root_level := WARN; root_handlers := [] |}.

(** Handlers only append to the trace and leave the logger alone. *)
Definition extends {A} (m : M A) : Prop :=
  forall s, exists t, trace (snd (m s)) = trace s ++ t /\
    handler_entries t = [] /\ root_handlers (snd (m s)) = root_handlers s.

(** The messages a trace prints, and the assignments to [command.chosen]. *)
Definition printed_messages (t : list event) : list string :=
  omap (fun e => match e with EPrint m => Some m | _ => None end) t.
Definition chosen_sets (t : list event) : list string :=
  omap (fun e => match e with ESetChosen n => Some n | _ => None end) t.

(** The command lines the usage text accepts:
    [devserver] and [tornadoserver] take [-p NUM] and [-l DIR], the three
    Celery commands take [-l DIR] only, [shell] and [create_all] neither. *)
Definition usage_accepts (inv : invocation) : bool :=
  let c := inv_cmd inv in
  bool_decide (c ∈ commands) &&
  (if bool_decide (c ∈ ["devserver"; "tornadoserver"]) then true
   else negb (bool_decide (is_Some (inv_port inv)))) &&
  (if bool_decide (c ∈ ["shell"; "create_all"])
   then negb (bool_decide (is_Some (inv_log_dir inv))) else true).

(** The same command line without the [-l DIR] flag. *)
Definition without_log_dir (inv : invocation) : invocation :=
  {| inv_cmd := inv_cmd inv; inv_port := inv_port inv; inv_log_dir := None;
     inv_config_prod := inv_config_prod inv |}.

(** An empty value given to [--log_dir]: [manage.py celerybeat --log_dir=]. *)
Definition empty_log_dir_inv : invocation :=
  {| inv_cmd := "celerybeat"; inv_port := None; inv_log_dir := Some "";
     inv_config_prod := false |}.

(** A filesystem with no directory at all. *)
Definition no_dirs : fs := {| isdir := fun _ => false; writable := fun _ => false |}.

(** The devserver command line with port [p]. *)
Definition devserver_inv (p : string) (b : bool) : invocation :=
  {| inv_cmd := "devserver"; inv_port := Some p; inv_log_dir := None;
     inv_config_prod := b |}.

(** The command line [manage.py shell]. *)
Definition shell_inv : invocation :=
  {| inv_cmd := "shell"; inv_port := None; inv_log_dir := None; inv_config_prod := false |}.

(** A filesystem in which every path is an existing, writable directory. *)
Definition all_dirs : fs := {| isdir := fun _ => true; writable := fun _ => true |}.

(** The logger after [setup_logging] in a fresh interpreter. *)
Definition logging_after (env : fs) (ld : option string) : pstate :=
  snd (setup_logging env
         (docopt_options {| inv_cmd := "devserver"; inv_port := None;
                            inv_log_dir := ld; inv_config_prod := false |})
         init_state).

Definition sinks_of (s : pstate) (lvl : Z) : list sink :=
  emitted_to (root_level s) (root_handlers s) lvl.

(** [manage.py celeryworker -l /srv/missing]. *)
Definition missing_dir_inv : invocation :=
  {| inv_cmd := "celeryworker"; inv_port := None; inv_log_dir := Some "/srv/missing";
     inv_config_prod := false |}.

(** The state after [s] has recorded the events [l]. *)
Definition appended (s : pstate) (l : list event) : pstate :=
  {| trace := trace s ++ l; chosen := chosen s;
     root_level := root_level s; root_handlers := root_handlers s |}.

(** The configuration class [parse_options] names for a command line. *)
Definition config_of (inv : invocation) : string :=
  if inv_config_prod inv then "pypi_portal.config.Production"
  else "pypi_portal.config.Config".

(** The commands whose handler calls [create_app(..., no_sql=True)]. *)
Definition celery_commands : list string := ["celerydev"; "celerybeat"; "celeryworker"].

(** The module body when the functions decorated with [@command] are
    [names] (the script itself decorates [commands]). *)
Definition run_module_registering (names : list string) (env : fs)
    (opts : gmap string optval) : M unit :=
  emit EOptionsParsed ;;;
  register_all opts names ;;;
  main_block env opts.

(** A computation that never ends the process through [sys.exit]. *)
Definition never_exits {A} (m : M A) : Prop :=
  forall s c s', m s <> (Exit c, s').

(* ------------------------------------------------------------------ *)
(** ** Basic facts *)

Section Monad_facts.
Context {A B : Type}.

Lemma bind_ok (m : M A) (k : A -> M B) s a s' :
  m s = (Ok a, s') -> bind m k s = k a s'.
Proof. intros H. unfold bind. by rewrite H. Qed.

Lemma bind_exit (m : M A) (k : A -> M B) s c s' :
  m s = (Exit c, s') -> bind m k s = (Exit c, s').
Proof. intros H. unfold bind. by rewrite H. Qed.

Lemma bind_raise (m : M A) (k : A -> M B) s e s' :
  m s = (Raise e, s') -> bind m k s = (Raise e, s').
Proof. intros H. unfold bind. by rewrite H. Qed.

End Monad_facts.

Ltac step H :=
  first [ erewrite (bind_ok _ _ _ _ _ H) | erewrite (bind_exit _ _ _ _ _ H)
        | erewrite (bind_raise _ _ _ _ _ H) ]; cbv beta.

Lemma emit_eq e s :
  emit e s = (Ok tt, {| trace := trace s ++ [e]; chosen := chosen s;
                         root_level := root_level s; root_handlers := root_handlers s |}).
Proof. reflexivity. Qed.

Section Docopt_facts.
Variable inv : invocation.

Lemma docopt_log_dir :
  docopt_options inv !! "--log_dir" =
  Some (match inv_log_dir inv with Some d => VStr d | None => VNone end).
Proof. unfold docopt_options. by rewrite lookup_insert_ne, lookup_insert_ne, lookup_insert_eq. Qed.

Lemma docopt_port :
  docopt_options inv !! "--port" = Some (VStr (default "5000" (inv_port inv))).
Proof.
  unfold docopt_options.
  by rewrite lookup_insert_ne, lookup_insert_ne, lookup_insert_ne, lookup_insert_eq.
Qed.

Lemma docopt_config_prod :
  docopt_options inv !! "--config_prod" = Some (VBool (inv_config_prod inv)).
Proof. unfold docopt_options. by rewrite lookup_insert_eq. Qed.

Lemma docopt_cmd c :
  c ∈ commands -> docopt_options inv !! c = Some (VBool (String.eqb c (inv_cmd inv))).
Proof.
  intros Hc. unfold docopt_options.
  repeat (rewrite lookup_insert_ne; [|intros ->; vm_compute in Hc; set_solver]).
  repeat (apply elem_of_cons in Hc as [->|Hc];
          [by rewrite lookup_insert_eq | rewrite lookup_insert_ne; [|done]]).
  set_solver.
Qed.

End Docopt_facts.

Lemma register_all_spec opts (f : string -> bool) names s :
  (forall n, n ∈ names -> opts !! n = Some (VBool (f n))) ->
  register_all opts names s =
  (Ok tt, {| trace := trace s ++ map ESetChosen (List.filter f names);
             chosen := fold_left (fun _ x => Some x) (List.filter f names) (chosen s);
             root_level := root_level s; root_handlers := root_handlers s |}).
Proof.
  revert s. induction names as [|n ns IH]; intros s Hn.
  - destruct s; simpl. by rewrite app_nil_r.
  - simpl. unfold command. rewrite (Hn n) by set_solver. simpl.
    destruct (f n); simpl.
    + unfold bind. simpl. rewrite IH by set_solver. simpl. by rewrite <- app_assoc.
    + unfold bind. simpl. rewrite IH by set_solver. destruct s; reflexivity.
Qed.

(** Running the script reaches the [__main__] block in [after_module]. *)
Lemma run_eq env inv :
  run env inv = main_block env (docopt_options inv) (after_module inv).
Proof.
  unfold run, run_module. step (emit_eq EOptionsParsed init_state).
  rewrite (bind_ok _ _ _ _ _ (register_all_spec _ (fun c => String.eqb c (inv_cmd inv)) _ _
            (docopt_cmd inv))).
  reflexivity.
Qed.

Section Setup_logging_facts.
Variables (env : fs) (inv : invocation) (s : pstate).

Lemma setup_logging_ok :
  log_dir_ok env (inv_log_dir inv) = true ->
  setup_logging env (docopt_options inv) s =
  (Ok tt, logging_set s (console_level (inv_log_dir inv))).
Proof.
  intros Hok. unfold setup_logging, opt_get. rewrite docopt_log_dir.
  unfold log_dir_ok, console_level in *.
  destruct (inv_log_dir inv) as [d|]; [|reflexivity].
  unfold bind, ret. simpl. destruct (String.eqb d "") eqn:E; [reflexivity|].
  simpl in Hok. apply andb_true_iff in Hok as [H1 H2].
  simpl. rewrite H1, H2. reflexivity.
Qed.

Lemma setup_logging_missing d :
  inv_log_dir inv = Some d -> d <> "" -> isdir env d = false ->
  setup_logging env (docopt_options inv) s = (Exit 1, printed s (missing_msg d)).
Proof.
  intros Hld Hd Hdir. unfold setup_logging, opt_get. rewrite docopt_log_dir, Hld.
  unfold bind, ret. simpl. apply String.eqb_neq in Hd. rewrite Hd, Hdir. reflexivity.
Qed.

Lemma setup_logging_unwritable d :
  inv_log_dir inv = Some d -> d <> "" -> isdir env d = true -> writable env d = false ->
  setup_logging env (docopt_options inv) s = (Exit 1, printed s (unwritable_msg d)).
Proof.
  intros Hld Hd Hdir Hw. unfold setup_logging, opt_get. rewrite docopt_log_dir, Hld.
  unfold bind, ret. simpl. apply String.eqb_neq in Hd. rewrite Hd, Hdir, Hw. reflexivity.
Qed.

Lemma check_port_ok :
  isdigit (default "5000" (inv_port inv)) = true ->
  check_port (docopt_options inv) s = (Ok tt, s).
Proof.
  intros H. unfold check_port, opt_get. rewrite docopt_port. unfold bind, ret. simpl.
  rewrite H. reflexivity.
Qed.

Lemma check_port_bad :
  isdigit (default "5000" (inv_port inv)) = false ->
  check_port (docopt_options inv) s = (Exit 1, printed s port_msg).
Proof.
  intros H. unfold check_port, opt_get. rewrite docopt_port. unfold bind, ret. simpl.
  rewrite H. reflexivity.
Qed.

End Setup_logging_facts.

Lemma log_dir_not_ok env ld :
  log_dir_ok env ld = false ->
  exists d, ld = Some d /\ d <> "" /\
    (isdir env d = false \/ (isdir env d = true /\ writable env d = false)).
Proof.
  destruct ld as [dir|]; simpl; [|discriminate].
  intros H. apply orb_false_iff in H as [H1 H2].
  exists dir. split; [done|]. split; [by apply String.eqb_neq|].
  destruct (isdir env dir), (writable env dir); simpl in *; auto; discriminate.
Qed.

(** The four ways a run of the script can go, by the two validations. *)
Lemma run_log_dir_missing env inv d :
  inv_log_dir inv = Some d -> d <> "" -> isdir env d = false ->
  run env inv = (Exit 1, printed (after_signal inv) (missing_msg d)).
Proof.
  intros Hld Hd Hdir. rewrite run_eq. unfold main_block.
  step (emit_eq ESignalInstalled (after_module inv)).
  erewrite (bind_exit _ _ _ _ _ (setup_logging_missing env inv (after_signal inv) d Hld Hd Hdir)).
  reflexivity.
Qed.

Lemma run_log_dir_unwritable env inv d :
  inv_log_dir inv = Some d -> d <> "" -> isdir env d = true -> writable env d = false ->
  run env inv = (Exit 1, printed (after_signal inv) (unwritable_msg d)).
Proof.
  intros Hld Hd Hdir Hw. rewrite run_eq. unfold main_block.
  step (emit_eq ESignalInstalled (after_module inv)).
  erewrite (bind_exit _ _ _ _ _ (setup_logging_unwritable env inv (after_signal inv) d Hld Hd Hdir Hw)).
  reflexivity.
Qed.

Lemma run_port_bad env inv :
  log_dir_ok env (inv_log_dir inv) = true ->
  isdigit (default "5000" (inv_port inv)) = false ->
  run env inv =
  (Exit 1, printed (logging_set (after_signal inv) (console_level (inv_log_dir inv))) port_msg).
Proof.
  intros Hl Hp. rewrite run_eq. unfold main_block.
  step (emit_eq ESignalInstalled (after_module inv)).
  step (setup_logging_ok env inv (after_signal inv) Hl).
  erewrite (bind_exit _ _ _ _ _ (check_port_bad inv (logging_set (after_signal inv) (console_level (inv_log_dir inv))) Hp)).
  reflexivity.
Qed.

Lemma run_valid env inv :
  log_dir_ok env (inv_log_dir inv) = true ->
  isdigit (default "5000" (inv_port inv)) = true ->
  run env inv =
  call_chosen (docopt_options inv)
    (logging_set (after_signal inv) (console_level (inv_log_dir inv))).
Proof.
  intros Hl Hp. rewrite run_eq. unfold main_block.
  step (emit_eq ESignalInstalled (after_module inv)).
  step (setup_logging_ok env inv (after_signal inv) Hl).
  step (check_port_ok inv (logging_set (after_signal inv) (console_level (inv_log_dir inv))) Hp).
  reflexivity.
Qed.

Create HintDb extends_db.

Section Extends_facts.
Context {A B : Type}.

Lemma extends_ret (a : A) : extends (ret a).
Proof. intros s. exists []. by rewrite app_nil_r. Qed.

Lemma extends_raise e : extends (@raise A e).
Proof. intros s. exists []. by rewrite app_nil_r. Qed.

Lemma extends_bind (m : M A) (k : A -> M B) :
  extends m -> (forall a, extends (k a)) -> extends (bind m k).
Proof.
  intros Hm Hk s. unfold bind. destruct (Hm s) as (t1 & Ht1 & He1 & Hh1).
  destruct (m s) as [[a|c|e] s1]; simpl in *.
  - destruct (Hk a s1) as (t2 & Ht2 & He2 & Hh2).
    exists (t1 ++ t2). rewrite Ht2, Ht1, <- app_assoc. split; [done|].
    unfold handler_entries in *. rewrite omap_app, He1, He2. split; [done|congruence].
  - by exists t1.
  - by exists t1.
Qed.

End Extends_facts.

Lemma extends_emit e :
  (forall n, e <> EHandlerEnter n) -> extends (emit e).
Proof.
  intros He s. exists [e]. split; [done|]. split; [|done].
  destruct e; simpl; try done. by destruct (He name).
Qed.

Lemma extends_opt_get opts key : extends (opt_get opts key).
Proof. unfold opt_get. destruct (opts !! key); auto using extends_ret, extends_raise. Qed.

Lemma extends_py_int s : extends (py_int s).
Proof. unfold py_int. destruct (isdigit s); auto using extends_ret, extends_raise. Qed.

Lemma extends_parse_options opts : extends (parse_options opts).
Proof.
  unfold parse_options. apply extends_bind; [apply extends_opt_get|].
  intros. apply extends_ret.
Qed.

#[local] Hint Resolve extends_ret extends_raise extends_bind extends_opt_get
  extends_py_int extends_parse_options : extends_db.
#[local] Hint Extern 1 (extends (emit _)) => apply extends_emit; discriminate : extends_db.
#[local] Hint Extern 1 (forall _, extends _) => intros : extends_db.

Lemma extends_run_handler name opts : extends (run_handler name opts).
Proof.
  unfold run_handler, devserver, tornadoserver, celerydev, celerybeat,
    celeryworker, celery_handler, shell, create_all.
  repeat (destruct (String.eqb _ _)); eauto 20 with extends_db.
Qed.

Lemma selected_in inv : inv_cmd inv ∈ commands -> selected inv = [inv_cmd inv].
Proof.
  unfold selected. intros H. destruct inv as [c ? ? ?]; simpl in *.
  repeat (apply elem_of_cons in H as [->|H]; [reflexivity|]). set_solver.
Qed.

Lemma after_signal_quiet inv :
  handler_entries (trace (after_signal inv)) = [] /\
  printed_messages (trace (after_signal inv)) = [].
Proof.
  simpl. generalize (selected inv) as l.
  induction l as [|n l IH]; simpl; [done|]. exact IH.
Qed.

Lemma isdigit_spec p :
  isdigit p = true <->
  p <> "" /\ List.Forall (fun c => is_digit c = true) (list_ascii_of_string p).
Proof.
  destruct p as [|a p]; simpl.
  - split; [discriminate|]. by intros [? _].
  - rewrite List.Forall_forall, <- forallb_forall. simpl. split; [|tauto].
    intros H. split; [discriminate|exact H].
Qed.

Lemma selected_notin inv : inv_cmd inv ∉ commands -> selected inv = [].
Proof.
  unfold selected. generalize commands as l.
  induction l as [|c l IH]; intros Hn; [done|]. simpl.
  destruct (String.eqb_spec c (inv_cmd inv)) as [->|_]; [set_solver|].
  apply IH. set_solver.
Qed.

Lemma chosen_after_signal inv :
  chosen (after_signal inv) =
  if bool_decide (inv_cmd inv ∈ commands) then Some (inv_cmd inv) else None.
Proof.
  case_bool_decide as H; simpl.
  - by rewrite selected_in.
  - by rewrite selected_notin.
Qed.

Lemma call_chosen_some opts s c :
  chosen s = Some c ->
  exists t, trace (snd (call_chosen opts s)) = trace s ++ EHandlerEnter c :: t /\
    handler_entries t = [] /\ root_handlers (snd (call_chosen opts s)) = root_handlers s.
Proof.
  intros Hc. unfold call_chosen, get_chosen, bind. rewrite Hc. simpl.
  destruct (extends_run_handler c opts
              {| trace := trace s ++ [EHandlerEnter c]; chosen := chosen s;
                 root_level := root_level s; root_handlers := root_handlers s |})
    as (t & Ht & He & Hh).
  exists t. destruct (run_handler c opts _) as [r s']. simpl in *.
  rewrite Ht, <- app_assoc. auto.
Qed.

Lemma call_chosen_none opts s :
  chosen s = None -> call_chosen opts s = (Raise (AttributeError "chosen"), s).
Proof. intros Hc. unfold call_chosen, get_chosen, bind. by rewrite Hc. Qed.

(** Once both validations passed, the trace goes on from [after_signal]
    and enters the handler of the command, if it is one. *)
Lemma run_valid_shape env inv :
  log_dir_ok env (inv_log_dir inv) = true ->
  isdigit (default "5000" (inv_port inv)) = true ->
  exists t, trace (snd (run env inv)) = trace (after_signal inv) ++ t /\
    handler_entries t =
      (if bool_decide (inv_cmd inv ∈ commands) then [inv_cmd inv] else []) /\
    root_handlers (snd (run env inv)) =
      [{| h_sink := Stdout; h_level := console_level (inv_log_dir inv) |}].
Proof.
  intros Hl Hp. rewrite (run_valid env inv Hl Hp).
  pose proof (chosen_after_signal inv) as Hc. case_bool_decide as Hin.
  - destruct (call_chosen_some (docopt_options inv)
                (logging_set (after_signal inv) (console_level (inv_log_dir inv)))
                (inv_cmd inv) Hc) as (t & Ht & He & Hh).
    exists (EHandlerEnter (inv_cmd inv) :: t). rewrite Ht, Hh. simpl. rewrite He. done.
  - rewrite call_chosen_none by exact Hc. exists []. simpl. by rewrite app_nil_r.
Qed.

(** A run stopped by an invalid log directory. *)
Lemma run_log_dir_bad env inv :
  log_dir_ok env (inv_log_dir inv) = false ->
  exists d, inv_log_dir inv = Some d /\ d <> "" /\
    run env inv =
    (Exit 1, printed (after_signal inv)
               (if isdir env d then unwritable_msg d else missing_msg d)).
Proof.
  intros Hl. destruct (log_dir_not_ok env _ Hl) as (d & Hld & Hd & [Hdir | [Hdir Hw]]);
    exists d; repeat split; auto; rewrite Hdir.
  - by apply run_log_dir_missing.
  - by apply run_log_dir_unwritable.
Qed.

(** The handlers read the options mapping only at [--config_prod] and
    [--port]. *)
Lemma run_handler_same_opts name o1 o2 s :
  o1 !! "--config_prod" = o2 !! "--config_prod" ->
  o1 !! "--port" = o2 !! "--port" ->
  run_handler name o1 s = run_handler name o2 s.
Proof.
  intros H1 H2.
  unfold run_handler, devserver, tornadoserver, celerydev, celerybeat, celeryworker,
    celery_handler, shell, create_all, parse_options, opt_get.
  rewrite ?H1, ?H2. reflexivity.
Qed.

(** [setup_logging] on an empty [--log_dir] value: no check, no message,
    console handler at DEBUG. *)
Lemma setup_logging_empty env inv s :
  inv_log_dir inv = Some "" ->
  setup_logging env (docopt_options inv) s = (Ok tt, logging_set s DEBUG).
Proof.
  intros Hld. unfold setup_logging, opt_get. rewrite docopt_log_dir, Hld.
  reflexivity.
Qed.

(** A run with an empty [--log_dir] value is the run without the flag. *)
Lemma run_empty_log_dir env inv :
  inv_log_dir inv = Some "" -> run env inv = run env (without_log_dir inv).
Proof.
  intros Hld.
  assert (Hl : log_dir_ok env (inv_log_dir inv) = true) by (rewrite Hld; reflexivity).
  assert (Hl' : log_dir_ok env (inv_log_dir (without_log_dir inv)) = true) by reflexivity.
  change (after_signal (without_log_dir inv)) with (after_signal inv).
  destruct (isdigit (default "5000" (inv_port inv))) eqn:Hp.
  - rewrite (run_valid env inv Hl Hp), (run_valid env (without_log_dir inv) Hl' Hp).
    change (after_signal (without_log_dir inv)) with (after_signal inv).
    rewrite Hld. cbn [console_level inv_log_dir without_log_dir].
    change (String.eqb "" "") with true. cbv iota.
    unfold call_chosen, get_chosen, bind.
    destruct (chosen _) as [f|]; [|reflexivity].
    unfold emit.
    rewrite (run_handler_same_opts f (docopt_options inv)
               (docopt_options (without_log_dir inv)));
      [reflexivity | by rewrite !docopt_config_prod | by rewrite !docopt_port].
  - rewrite (run_port_bad env inv Hl Hp), (run_port_bad env (without_log_dir inv) Hl' Hp).
    change (after_signal (without_log_dir inv)) with (after_signal inv).
    rewrite Hld. reflexivity.
Qed.

(* ------------------------------------------------------------------ *)
(** * The claims *)

(** C3: a port flag value with a non-digit character makes the script
    print an error message and exit with status 1, and no operation
    handler is entered. *)
Theorem nondigit_port_exits_1 env inv p :
  inv_port inv = Some p ->
  (exists c, In c (list_ascii_of_string p) /\ is_digit c = false) ->
  fst (run env inv) = Exit 1 /\
  (exists msg, printed_messages (trace (snd (run env inv))) = [msg]) /\
  handler_entries (trace (snd (run env inv))) = [].
Proof.
  intros Hp (c & Hin & Hc).
  assert (Hd : isdigit (default "5000" (inv_port inv)) = false).
  { rewrite Hp. simpl. destruct (isdigit p) eqn:E; [|done].
    apply isdigit_spec in E as [_ E]. rewrite List.Forall_forall in E.
    rewrite (E c Hin) in Hc. discriminate. }
  destruct (after_signal_quiet inv) as [He Hm].
  destruct (log_dir_ok env (inv_log_dir inv)) eqn:Hl.
  - rewrite (run_port_bad env inv Hl Hd). unfold printed, logging_set.
    cbn [fst snd trace].
    unfold printed_messages, handler_entries in *. rewrite !omap_app, He, Hm.
    split; [done|]. split; [by eexists|done].
  - destruct (run_log_dir_bad env inv Hl) as (d & _ & _ & ->). unfold printed.
    cbn [fst snd trace].
    unfold printed_messages, handler_entries in *. rewrite !omap_app, He, Hm.
    split; [done|]. split; [by eexists|done].
Qed.

(** C4 (as amended): for a log-directory value that does not name an
    existing directory, or names one that is not writable,
    - if the value is non-empty, the script prints the matching error and
      exits with status 1; no logging handler (so no log file) is installed
      and no operation handler is entered;
    - if the value is empty ([--log_dir=]), it is falsy: [setup_logging]
      makes neither check, prints nothing and sets the console handler at
      DEBUG, and the whole run is the run without the flag. *)
Theorem bad_log_dir_exits_1 env inv d :
  inv_log_dir inv = Some d ->
  (isdir env d = false \/ writable env d = false) ->
  (d <> "" ->
   fst (run env inv) = Exit 1 /\
   printed_messages (trace (snd (run env inv))) =
     [if isdir env d then unwritable_msg d else missing_msg d] /\
   root_handlers (snd (run env inv)) = [] /\
   handler_entries (trace (snd (run env inv))) = []) /\
  (d = "" ->
   (forall s, setup_logging env (docopt_options inv) s = (Ok tt, logging_set s DEBUG)) /\
   run env inv = run env (without_log_dir inv)).
Proof.
  intros Hld Hbad. split.
  - intros Hd.
    assert (Hl : log_dir_ok env (inv_log_dir inv) = false).
    { rewrite Hld. simpl. apply String.eqb_neq in Hd. rewrite Hd.
      destruct Hbad as [-> | ->]; [done|]. by rewrite andb_false_r. }
    destruct (run_log_dir_bad env inv Hl) as (d' & Hld' & _ & ->).
    rewrite Hld in Hld'. injection Hld' as <-.
    destruct (after_signal_quiet inv) as [He Hm]. unfold printed.
    cbn [fst snd trace root_handlers].
    unfold printed_messages, handler_entries in *. rewrite !omap_app, He, Hm.
    done.
  - intros ->. split.
    + intros s. by apply setup_logging_empty.
    + by apply run_empty_log_dir.
Qed.

(** C4 counterexample: [manage.py celerybeat --log_dir=] is a command line
    of the usage text whose log-directory value names no existing directory
    ([os.path.isdir('')] is false), yet the truthiness test of
    [setup_logging] skips both checks: no error is printed, [setup_logging]
    returns instead of exiting, and the [celerybeat] handler is entered with
    the console handler at DEBUG. *)
Lemma empty_log_dir_not_rejected :
  usage_accepts empty_log_dir_inv = true /\
  inv_log_dir empty_log_dir_inv = Some "" /\
  isdir no_dirs "" = false /\
  setup_logging no_dirs (docopt_options empty_log_dir_inv) (after_signal empty_log_dir_inv) =
    (Ok tt, logging_set (after_signal empty_log_dir_inv) DEBUG) /\
  printed_messages (trace (snd (run no_dirs empty_log_dir_inv))) = [] /\
  handler_entries (trace (snd (run no_dirs empty_log_dir_inv))) = ["celerybeat"] /\
  root_handlers (snd (run no_dirs empty_log_dir_inv)) =
    [{| h_sink := Stdout; h_level := DEBUG |}].
Proof. vm_compute. repeat split. Qed.

(** The part of every run before [setup_logging]. *)
Lemma run_from_after_signal env inv :
  exists t, trace (snd (run env inv)) = trace (after_signal inv) ++ t.
Proof.
  destruct (log_dir_ok env (inv_log_dir inv)) eqn:Hl.
  - destruct (isdigit (default "5000" (inv_port inv))) eqn:Hp.
    + destruct (run_valid_shape env inv Hl Hp) as (t & Ht & _). by exists t.
    + rewrite (run_port_bad env inv Hl Hp). by eexists.
  - destruct (run_log_dir_bad env inv Hl) as (d & _ & _ & ->). by eexists.
Qed.

(** C8: the script parses the options and registers the commands, then
    installs the signal handler, configures logging (validating the log
    directory), validates the port and only then enters the chosen
    handler; a handler is entered only when both validations passed, and
    with both values invalid the log-directory error is the one printed. *)
Theorem run_steps_in_order env inv :
  (exists rest, trace (snd (run env inv)) =
     EOptionsParsed :: map ESetChosen (selected inv) ++ ESignalInstalled :: rest) /\
  (handler_entries (trace (snd (run env inv))) <> [] ->
     log_dir_ok env (inv_log_dir inv) = true /\
     isdigit (default "5000" (inv_port inv)) = true /\
     root_handlers (snd (run env inv)) <> []) /\
  (log_dir_ok env (inv_log_dir inv) = false ->
     fst (run env inv) = Exit 1 /\ root_handlers (snd (run env inv)) = [] /\
     exists d, inv_log_dir inv = Some d /\
       printed_messages (trace (snd (run env inv))) =
         [if isdir env d then unwritable_msg d else missing_msg d]) /\
  (log_dir_ok env (inv_log_dir inv) = true ->
   isdigit (default "5000" (inv_port inv)) = false ->
     fst (run env inv) = Exit 1 /\
     printed_messages (trace (snd (run env inv))) = [port_msg] /\
     root_handlers (snd (run env inv)) <> []).
Proof.
  destruct (after_signal_quiet inv) as [He Hm].
  split; [|split; [|split]].
  - destruct (run_from_after_signal env inv) as [t ->]. exists t.
    simpl. by rewrite <- app_assoc.
  - intros Hne. destruct (log_dir_ok env (inv_log_dir inv)) eqn:Hl.
    + destruct (isdigit (default "5000" (inv_port inv))) eqn:Hp.
      * destruct (run_valid_shape env inv Hl Hp) as (t & _ & _ & ->). done.
      * exfalso. apply Hne. rewrite (run_port_bad env inv Hl Hp).
        unfold printed, logging_set. cbn [fst snd trace].
        unfold handler_entries in *. by rewrite omap_app, He.
    + exfalso. apply Hne. destruct (run_log_dir_bad env inv Hl) as (d & _ & _ & ->).
      unfold printed. cbn [fst snd trace].
      unfold handler_entries in *. by rewrite omap_app, He.
  - intros Hl. destruct (run_log_dir_bad env inv Hl) as (d & Hld & _ & ->).
    unfold printed. cbn [fst snd trace root_handlers].
    split; [done|]. split; [done|]. exists d. split; [done|].
    unfold printed_messages in *. by rewrite omap_app, Hm.
  - intros Hl Hp. rewrite (run_port_bad env inv Hl Hp).
    unfold printed, logging_set. cbn [fst snd trace root_handlers].
    split; [done|]. split.
    + unfold printed_messages in *. by rewrite omap_app, Hm.
    + destruct (root_handlers (after_signal inv)); discriminate.
Qed.

Lemma run_devserver_digits env p b :
  isdigit p = true ->
  run env (devserver_inv p b) =
  (Ok tt, {| trace := [EOptionsParsed; ESetChosen "devserver"; ESignalInstalled;
                       EHandlerEnter "devserver";
                       ECreateApp (if b then "pypi_portal.config.Production"
                                   else "pypi_portal.config.Config") false;
                       ELogMessages p; EAppRun "0.0.0.0" (Z_of_digits p)];
             chosen := Some "devserver"; root_level := DEBUG;
             root_handlers := [{| h_sink := Stdout; h_level := DEBUG |}] |}).
Proof.
  intros Hp. rewrite run_valid by done.
  unfold call_chosen, get_chosen, bind. simpl.
  unfold run_handler. simpl.
  unfold devserver, parse_options, opt_get, py_int.
  rewrite docopt_config_prod, docopt_port.
  cbv [bind ret emit]. simpl. rewrite Hp. reflexivity.
Qed.

(** C10: the port check accepts exactly the non-empty strings of decimal
    digits, with no range check: ["0"] and ["65536"] reach [app.run] as the
    ports 0 and 65536, while ["-1"], ["+5"] and [""] make the script exit
    with status 1 before any handler. *)
Theorem port_check_digits_only env p b :
  (isdigit p = true <->
   p <> "" /\ List.Forall (fun c => is_digit c = true) (list_ascii_of_string p)) /\
  fst (run env (devserver_inv p b)) = (if isdigit p then Ok tt else Exit 1) /\
  handler_entries (trace (snd (run env (devserver_inv p b)))) =
    (if isdigit p then ["devserver"] else []) /\
  (isdigit p = true ->
   EAppRun "0.0.0.0" (Z_of_digits p) ∈ trace (snd (run env (devserver_inv p b)))) /\
  EAppRun "0.0.0.0" 0 ∈ trace (snd (run env (devserver_inv "0" b))) /\
  EAppRun "0.0.0.0" 65536 ∈ trace (snd (run env (devserver_inv "65536" b))) /\
  fst (run env (devserver_inv "-1" b)) = Exit 1 /\
  fst (run env (devserver_inv "+5" b)) = Exit 1 /\
  fst (run env (devserver_inv "" b)) = Exit 1.
Proof.
  assert (Hbad : forall q, isdigit q = false ->
            fst (run env (devserver_inv q b)) = Exit 1 /\
            handler_entries (trace (snd (run env (devserver_inv q b)))) = []).
  { intros q Hq. rewrite (run_port_bad env (devserver_inv q b) eq_refl Hq).
    split; [done|].
    destruct (after_signal_quiet (devserver_inv q b)) as [He _].
    unfold printed, logging_set. cbn [snd trace].
    unfold handler_entries in *. by rewrite omap_app, He. }
  split; [apply isdigit_spec|].
  split; [|split; [|split; [|split; [|split; [|split; [|split]]]]]].
  - destruct (isdigit p) eqn:Hp.
    + by rewrite run_devserver_digits.
    + by apply Hbad.
  - destruct (isdigit p) eqn:Hp.
    + by rewrite run_devserver_digits.
    + by apply Hbad.
  - intros Hp. rewrite run_devserver_digits by done. simpl. set_solver.
  - rewrite run_devserver_digits by reflexivity. simpl. set_solver.
  - rewrite run_devserver_digits by reflexivity. simpl. set_solver.
  - by apply Hbad.
  - by apply Hbad.
  - by apply Hbad.
Qed.

(** C2: for each command given with no optional flag, registration
    assigns [command.chosen] exactly once, to the function of that name,
    and exactly that handler runs. *)
Theorem one_command_chosen env cmd :
  cmd ∈ commands ->
  fst (run env {| inv_cmd := cmd; inv_port := None; inv_log_dir := None;
                  inv_config_prod := false |}) = Ok tt /\
  chosen (snd (run env {| inv_cmd := cmd; inv_port := None; inv_log_dir := None;
                          inv_config_prod := false |})) = Some cmd /\
  chosen_sets (trace (snd (run env {| inv_cmd := cmd; inv_port := None;
                                      inv_log_dir := None; inv_config_prod := false |})))
    = [cmd] /\
  handler_entries (trace (snd (run env {| inv_cmd := cmd; inv_port := None;
                                          inv_log_dir := None; inv_config_prod := false |})))
    = [cmd].
Proof.
  intros Hc. repeat (apply elem_of_cons in Hc as [->|Hc]; [vm_compute; auto|]).
  set_solver.
Qed.

(** C5: decorating a function whose name is not a key of [OPTIONS] raises
    [KeyError] at once, leaving the process state untouched. *)
Theorem command_unknown_name_raises (opts : gmap string optval) name s :
  opts !! name = None ->
  command opts name s =
  (Raise (KeyError ("Cannot register " +:+ name +:+ ", not mentioned in docstring/docopt.")), s).
Proof. intros H. unfold command. by rewrite H. Qed.

(** C6: [create_all], with or without [--config_prod], runs the
    [create_all] handler, which calls [db.create_all()] once inside an
    application context; no server loop starts and the status is 0. *)
Theorem create_all_runs_once env b :
  run env {| inv_cmd := "create_all"; inv_port := None; inv_log_dir := None;
             inv_config_prod := b |} =
  (Ok tt, {| trace := [EOptionsParsed; ESetChosen "create_all"; ESignalInstalled;
                       EHandlerEnter "create_all";
                       ECreateApp (if b then "pypi_portal.config.Production"
                                   else "pypi_portal.config.Config") false;
                       EAppCtxEnter; EDbCreateAll; EAppCtxExit];
             chosen := Some "create_all"; root_level := DEBUG;
             root_handlers := [{| h_sink := Stdout; h_level := DEBUG |}] |}) /\
  exit_code (fst (run env {| inv_cmd := "create_all"; inv_port := None;
                             inv_log_dir := None; inv_config_prod := b |})) = 0.
Proof. destruct b; split; reflexivity. Qed.

Lemma LEVEL_MAP_lookup_None k :
  k ∉ [FATAL; ERROR; WARN; INFO; DEBUG] -> LEVEL_MAP !! k = None.
Proof.
  intros Hk. unfold LEVEL_MAP.
  repeat (rewrite lookup_insert_ne; [|intros E; apply Hk; rewrite <- E; set_solver]).
  reflexivity.
Qed.

(** C9: [CustomFormatter.format] formats the records of the five standard
    levels and raises [KeyError] on every other level number. *)
Theorem format_only_standard_levels (r : log_record) :
  (levelno r ∉ [FATAL; ERROR; WARN; INFO; DEBUG] ->
   format r = Raise (KeyError "levelno")) /\
  (levelno r ∈ [FATAL; ERROR; WARN; INFO; DEBUG] ->
   exists letter, format r = Ok (base_format letter r)).
Proof.
  unfold format. split.
  - intros Hk. by rewrite LEVEL_MAP_lookup_None.
  - intros Hk. destruct r as [lv ? ? ? ? ? ?]; simpl in *.
    repeat (apply elem_of_cons in Hk as [->|Hk]; [by eexists|]). set_solver.
Qed.

(** C1 (failing input [-l /var/log/pypi_portal], an existing writable
    directory): without [--log_dir] every level from DEBUG up reaches the
    console; with it only ERROR and FATAL reach the console, and DEBUG,
    INFO and WARNING records reach no handler at all: no file handler is
    ever installed. *)
Theorem log_dir_routes_nothing_to_disk :
  List.Forall (fun lvl => sinks_of (logging_after all_dirs None) lvl = [Stdout])
    [DEBUG; INFO; WARN; ERROR; FATAL] /\
  List.Forall (fun lvl => sinks_of (logging_after all_dirs (Some "/var/log/pypi_portal")) lvl = [Stdout])
    [ERROR; FATAL] /\
  List.Forall (fun lvl => sinks_of (logging_after all_dirs (Some "/var/log/pypi_portal")) lvl = [])
    [DEBUG; INFO; WARN] /\
  root_handlers (logging_after all_dirs (Some "/var/log/pypi_portal")) =
    [{| h_sink := Stdout; h_level := ERROR |}].
Proof. vm_compute. repeat constructor. Qed.

(* ------------------------------------------------------------------ *)
(** * Witnesses: the hypotheses above hold on concrete inputs *)

Lemma one_command_chosen_witness :
  "shell" ∈ commands /\
  fst (run all_dirs shell_inv) = Ok tt /\ chosen (snd (run all_dirs shell_inv)) = Some "shell" /\
  chosen_sets (trace (snd (run all_dirs shell_inv))) = ["shell"] /\
  handler_entries (trace (snd (run all_dirs shell_inv))) = ["shell"].
Proof.
  assert (H : "shell" ∈ commands) by (apply (bool_decide_unpack _); vm_compute; exact I).
  split; [exact H | apply (one_command_chosen all_dirs "shell" H)].
Defined.

Lemma nondigit_port_exits_1_witness :
  inv_port (devserver_inv "80a" false) = Some "80a" /\
  In "a"%char (list_ascii_of_string "80a") /\ is_digit "a"%char = false /\
  fst (run all_dirs (devserver_inv "80a" false)) = Exit 1 /\
  (exists msg, printed_messages (trace (snd (run all_dirs (devserver_inv "80a" false)))) = [msg]) /\
  handler_entries (trace (snd (run all_dirs (devserver_inv "80a" false)))) = [].
Proof.
  assert (Hin : In "a"%char (list_ascii_of_string "80a")) by (simpl; auto).
  assert (Hd : is_digit "a"%char = false) by reflexivity.
  split; [reflexivity|]. split; [exact Hin|]. split; [exact Hd|].
  apply (nondigit_port_exits_1 all_dirs (devserver_inv "80a" false) "80a" eq_refl).
  exists "a"%char. split; [exact Hin | exact Hd].
Defined.

Lemma bad_log_dir_exits_1_witness :
  (fst (run no_dirs missing_dir_inv) = Exit 1 /\
   printed_messages (trace (snd (run no_dirs missing_dir_inv))) =
     [missing_msg "/srv/missing"] /\
   root_handlers (snd (run no_dirs missing_dir_inv)) = [] /\
   handler_entries (trace (snd (run no_dirs missing_dir_inv))) = []) /\
  (forall s, setup_logging no_dirs (docopt_options empty_log_dir_inv) s =
             (Ok tt, logging_set s DEBUG)) /\
  run no_dirs empty_log_dir_inv = run no_dirs (without_log_dir empty_log_dir_inv).
Proof.
  split.
  - apply (proj1 (bad_log_dir_exits_1 no_dirs missing_dir_inv "/srv/missing"
                    eq_refl (or_introl eq_refl))).
    discriminate.
  - apply (proj2 (bad_log_dir_exits_1 no_dirs empty_log_dir_inv ""
                    eq_refl (or_introl eq_refl))).
    reflexivity.
Defined.

Lemma command_unknown_name_raises_witness :
  docopt_options shell_inv !! "runserver" = None /\
  command (docopt_options shell_inv) "runserver" init_state =
  (Raise (KeyError ("Cannot register " +:+ "runserver" +:+
                    ", not mentioned in docstring/docopt.")), init_state).
Proof.
  assert (H : docopt_options shell_inv !! "runserver" = None) by (vm_compute; reflexivity).
  split; [exact H | apply (command_unknown_name_raises _ "runserver" init_state H)].
Defined.

(* ------------------------------------------------------------------ *)
(** * Further properties of the handlers and of the whole script *)

Section Handler_equations.
Variables (inv : invocation) (s : pstate).

Ltac run_handler_body :=
  cbv [bind ret emit]; simpl; unfold appended; simpl;
  rewrite <- ?app_assoc; reflexivity.

Lemma devserver_eq :
  isdigit (default "5000" (inv_port inv)) = true ->
  devserver (docopt_options inv) s =
  (Ok tt, appended s [ECreateApp (config_of inv) false;
                      ELogMessages (default "5000" (inv_port inv));
                      EAppRun "0.0.0.0" (Z_of_digits (default "5000" (inv_port inv)))]).
Proof.
  intros Hp. unfold devserver, parse_options, opt_get, py_int, config_of.
  rewrite docopt_config_prod, docopt_port. cbv [bind ret emit]. simpl.
  rewrite Hp. unfold appended. simpl. rewrite <- ?app_assoc. reflexivity.
Qed.

Lemma tornadoserver_eq :
  tornadoserver (docopt_options inv) s =
  (Ok tt, appended s [ECreateApp (config_of inv) false;
                      ELogMessages (default "5000" (inv_port inv));
                      EHttpBind (default "5000" (inv_port inv));
                      EHttpStart 0; EIOLoopStart]).
Proof.
  unfold tornadoserver, parse_options, opt_get, config_of.
  rewrite docopt_config_prod, docopt_port. run_handler_body.
Qed.

Lemma celery_handler_eq args :
  celery_handler args (docopt_options inv) s =
  (Ok tt, appended s [ECreateApp (config_of inv) true; ECeleryLoggingOff;
                      EAppCtxEnter; ECeleryMain args; EAppCtxExit]).
Proof.
  unfold celery_handler, parse_options, opt_get, config_of.
  rewrite docopt_config_prod. run_handler_body.
Qed.

Lemma shell_eq :
  shell (docopt_options inv) s =
  (Ok tt, appended s [ECreateApp (config_of inv) false; EAppCtxPush; EShellRun]).
Proof.
  unfold shell, parse_options, opt_get, config_of.
  rewrite docopt_config_prod. run_handler_body.
Qed.

Lemma create_all_eq :
  create_all (docopt_options inv) s =
  (Ok tt, appended s [ECreateApp (config_of inv) false; EAppCtxEnter;
                      EDbCreateAll; EAppCtxExit]).
Proof.
  unfold create_all, parse_options, opt_get, config_of.
  rewrite docopt_config_prod. run_handler_body.
Qed.

End Handler_equations.

(** On a command line that passes both validations, the script runs the
    handler of its command after recording its entry. *)
Lemma run_valid_command env inv :
  inv_cmd inv ∈ commands ->
  log_dir_ok env (inv_log_dir inv) = true ->
  isdigit (default "5000" (inv_port inv)) = true ->
  run env inv =
  run_handler (inv_cmd inv) (docopt_options inv)
    (appended (logging_set (after_signal inv) (console_level (inv_log_dir inv)))
       [EHandlerEnter (inv_cmd inv)]).
Proof.
  intros Hin Hl Hp. rewrite (run_valid env inv Hl Hp).
  unfold call_chosen, get_chosen, bind.
  assert (Hc : chosen (logging_set (after_signal inv) (console_level (inv_log_dir inv)))
               = Some (inv_cmd inv)).
  { unfold logging_set. cbn [chosen]. rewrite chosen_after_signal.
    by rewrite bool_decide_eq_true_2. }
  rewrite Hc. reflexivity.
Qed.

(** Every handler starts by creating exactly one application object: with
    the production configuration class iff [--config_prod] was given, and
    with [no_sql=True] exactly for the Celery commands; no call the
    handler makes afterwards creates another one. *)
Theorem handler_creates_one_app env inv :
  inv_cmd inv ∈ commands ->
  log_dir_ok env (inv_log_dir inv) = true ->
  isdigit (default "5000" (inv_port inv)) = true ->
  exists rest,
    trace (snd (run env inv)) =
      trace (after_signal inv) ++
      EHandlerEnter (inv_cmd inv) ::
      ECreateApp (config_of inv) (bool_decide (inv_cmd inv ∈ celery_commands)) :: rest /\
    (forall cfg no_sql, ECreateApp cfg no_sql ∉ rest).
Proof.
  intros Hin Hl Hp. rewrite (run_valid_command env inv Hin Hl Hp).
  remember (appended (logging_set (after_signal inv) (console_level (inv_log_dir inv)))
              [EHandlerEnter (inv_cmd inv)]) as s0 eqn:Hs0.
  assert (Ht0 : trace s0 = trace (after_signal inv) ++ [EHandlerEnter (inv_cmd inv)])
    by (subst s0; reflexivity).
  clear Hs0.
  unfold run_handler.
  repeat (apply elem_of_cons in Hin as [Hc|Hin];
    [rewrite Hc in Ht0 |- *; simpl in Ht0 |- *;
     unfold celerydev, celerybeat, celeryworker;
     first [ rewrite (devserver_eq inv s0) by done | rewrite tornadoserver_eq
           | rewrite celery_handler_eq | rewrite shell_eq | rewrite create_all_eq ];
     eexists; split;
     [ unfold appended; cbn [trace snd]; rewrite Ht0, <- !app_assoc; simpl;
       rewrite <- !app_assoc; reflexivity
     | intros cfg no_sql; set_solver ] |]).
  set_solver.
Qed.

(** [tornadoserver] hands the port string to [HTTPServer.bind] as it is
    (no [int] conversion), forks with [start(0)] and then starts the I/O
    loop; it never calls [app.run]. *)
Theorem tornadoserver_run env ld p b :
  log_dir_ok env ld = true -> isdigit p = true ->
  run env {| inv_cmd := "tornadoserver"; inv_port := Some p; inv_log_dir := ld;
             inv_config_prod := b |} =
  (Ok tt,
   {| trace := [EOptionsParsed; ESetChosen "tornadoserver"; ESignalInstalled;
                EHandlerEnter "tornadoserver";
                ECreateApp (if b then "pypi_portal.config.Production"
                            else "pypi_portal.config.Config") false;
                ELogMessages p; EHttpBind p; EHttpStart 0; EIOLoopStart];
      chosen := Some "tornadoserver"; root_level := DEBUG;
      root_handlers := [{| h_sink := Stdout; h_level := console_level ld |}] |}).
Proof.
  intros Hl Hp. rewrite run_valid_command by (simpl; auto; set_solver).
  unfold run_handler. simpl. rewrite tornadoserver_eq. reflexivity.
Qed.

(** The three Celery commands switch off Celery's own logging setup, then
    call [celery_main] once, inside an application context, with their
    fixed argument lists. *)
Theorem celery_commands_run env name ld b :
  name ∈ celery_commands -> log_dir_ok env ld = true ->
  run env {| inv_cmd := name; inv_port := None; inv_log_dir := ld;
             inv_config_prod := b |} =
  (Ok tt,
   {| trace := [EOptionsParsed; ESetChosen name; ESignalInstalled;
                EHandlerEnter name;
                ECreateApp (if b then "pypi_portal.config.Production"
                            else "pypi_portal.config.Config") true;
                ECeleryLoggingOff; EAppCtxEnter;
                ECeleryMain
                  (if String.eqb name "celerydev"
                   then ["celery"; "worker"; "-B"; "-s"; "/tmp/celery.db"; "--concurrency=5"]
                   else if String.eqb name "celerybeat"
                   then ["celery"; "beat"; "-C"; "--pidfile=celery_beat.pid"]
                   else ["celery"; "worker"; "-C"; "--autoscale=10,1"; "--without-gossip"]);
                EAppCtxExit];
      chosen := Some name; root_level := DEBUG;
      root_handlers := [{| h_sink := Stdout; h_level := console_level ld |}] |}).
Proof.
  intros Hin Hl.
  repeat (apply elem_of_cons in Hin as [->|Hin];
    [rewrite run_valid_command by (simpl; auto; set_solver);
     unfold run_handler; simpl; unfold celerydev, celerybeat, celeryworker;
     rewrite celery_handler_eq; reflexivity |]).
  set_solver.
Qed.

(** [shell] pushes an application context that it never pops, then runs
    the interactive shell; no server loop starts. *)
Theorem shell_run env b :
  run env {| inv_cmd := "shell"; inv_port := None; inv_log_dir := None;
             inv_config_prod := b |} =
  (Ok tt,
   {| trace := [EOptionsParsed; ESetChosen "shell"; ESignalInstalled;
                EHandlerEnter "shell";
                ECreateApp (if b then "pypi_portal.config.Production"
                            else "pypi_portal.config.Config") false;
                EAppCtxPush; EShellRun];
      chosen := Some "shell"; root_level := DEBUG;
      root_handlers := [{| h_sink := Stdout; h_level := DEBUG |}] |}).
Proof.
  rewrite run_valid_command by (simpl; auto; set_solver).
  unfold run_handler. simpl. rewrite shell_eq. reflexivity.
Qed.

(** The [__main__] block once both validations pass. *)
Lemma main_block_valid env inv s :
  log_dir_ok env (inv_log_dir inv) = true ->
  isdigit (default "5000" (inv_port inv)) = true ->
  main_block env (docopt_options inv) s =
  call_chosen (docopt_options inv)
    (logging_set (appended s [ESignalInstalled]) (console_level (inv_log_dir inv))).
Proof.
  intros Hl Hp. unfold main_block.
  step (emit_eq ESignalInstalled s).
  step (setup_logging_ok env inv (appended s [ESignalInstalled]) Hl).
  step (check_port_ok inv
          (logging_set (appended s [ESignalInstalled]) (console_level (inv_log_dir inv))) Hp).
  reflexivity.
Qed.

Lemma filter_eqb_notin (cmd : string) names :
  cmd ∉ names -> List.filter (fun c => String.eqb c cmd) names = [].
Proof.
  induction names as [|c l IH]; intros Hn; [done|]. simpl.
  destruct (String.eqb_spec c cmd) as [->|_]; [set_solver|].
  apply IH. set_solver.
Qed.

Lemma register_all_unknown opts (f : string -> bool) pre n post s :
  (forall m, m ∈ pre -> opts !! m = Some (VBool (f m))) ->
  opts !! n = None ->
  exists s',
    (register_all opts (pre ++ n :: post) s =
     (Raise (KeyError ("Cannot register " +:+ n +:+ ", not mentioned in docstring/docopt.")), s'))
    /\ (trace s' = trace s ++ map ESetChosen (List.filter f pre))
    /\ (root_handlers s' = root_handlers s).
Proof.
  revert s. induction pre as [|m pre IH]; intros s Hpre Hn.
  - exists s. simpl. unfold bind, command. rewrite Hn. simpl.
    by rewrite app_nil_r.
  - assert (Hpre' : forall m', m' ∈ pre -> opts !! m' = Some (VBool (f m')))
      by (intros; apply Hpre; set_solver).
    simpl. unfold bind at 1. unfold command at 1. rewrite (Hpre m) by set_solver.
    destruct (f m); cbv [set_chosen ret]; simpl;
      match goal with |- context [register_all opts _ ?st] =>
        destruct (IH st Hpre' Hn) as (s' & Hr & Ht & Hh) end;
      rewrite Hr; exists s'; simpl in *;
      rewrite Ht, ?Hh; [by rewrite <- app_assoc|done].
Qed.

Lemma set_signal_notin l : ESignalInstalled ∉ map ESetChosen l.
Proof. induction l; simpl; [set_solver|]. rewrite elem_of_cons. intros [H|H]; [done|auto]. Qed.

Lemma set_entries_nil l : handler_entries (map ESetChosen l) = [].
Proof. by induction l. Qed.

(** A command accepted by the usage text but left without an [@command]
    function gets through both validations and then fails with
    [AttributeError] on [getattr(command, 'chosen')]: no handler runs. *)
Theorem unregistered_command_attribute_error env inv names :
  List.Forall (fun n => n ∈ commands) names ->
  inv_cmd inv ∉ names ->
  log_dir_ok env (inv_log_dir inv) = true ->
  isdigit (default "5000" (inv_port inv)) = true ->
  fst (run_module_registering names env (docopt_options inv) init_state)
    = Raise (AttributeError "chosen") /\
  handler_entries (trace (snd (run_module_registering names env (docopt_options inv) init_state)))
    = [] /\
  root_handlers (snd (run_module_registering names env (docopt_options inv) init_state))
    = [{| h_sink := Stdout; h_level := console_level (inv_log_dir inv) |}].
Proof.
  intros Hnames Hout Hl Hp. unfold run_module_registering.
  step (emit_eq EOptionsParsed init_state).
  rewrite (bind_ok _ _ _ _ _ (register_all_spec _ (fun c => String.eqb c (inv_cmd inv)) names _
            (fun n Hn => docopt_cmd inv n (proj1 (List.Forall_forall _ _) Hnames n
                                             (proj1 (list_elem_of_In _ _) Hn))))).
  cbv beta. rewrite filter_eqb_notin by done.
  rewrite main_block_valid by done.
  rewrite call_chosen_none by reflexivity.
  simpl. done.
Qed.

(** Decorating a function whose name is not in the usage text stops the
    import at that decorator with [KeyError]: the functions before it may
    have been registered, but the SIGINT handler is never installed,
    logging is never configured and no handler runs. *)
Theorem unknown_registration_aborts env inv pre n post :
  List.Forall (fun m => m ∈ commands) pre ->
  docopt_options inv !! n = None ->
  fst (run_module_registering (pre ++ n :: post) env (docopt_options inv) init_state)
    = Raise (KeyError ("Cannot register " +:+ n +:+ ", not mentioned in docstring/docopt.")) /\
  (ESignalInstalled ∉
    trace (snd (run_module_registering (pre ++ n :: post) env (docopt_options inv) init_state))) /\
  root_handlers (snd (run_module_registering (pre ++ n :: post) env (docopt_options inv) init_state))
    = [] /\
  handler_entries
    (trace (snd (run_module_registering (pre ++ n :: post) env (docopt_options inv) init_state)))
    = [].
Proof.
  intros Hpre Hn. unfold run_module_registering.
  step (emit_eq EOptionsParsed init_state).
  destruct (register_all_unknown _ (fun c => String.eqb c (inv_cmd inv))
            pre n post (appended init_state [EOptionsParsed])
            (fun m Hm => docopt_cmd inv m (proj1 (List.Forall_forall _ _) Hpre m
                                             (proj1 (list_elem_of_In _ _) Hm))) Hn)
    as (s' & Hr & Ht & Hh).
  rewrite (bind_raise _ _ _ _ _ Hr). cbn [fst snd]. rewrite Ht, Hh. simpl.
  split; [done|]. split; [|split; [done|]].
  - rewrite elem_of_cons. intros [H|H]; [done|]. by apply set_signal_notin in H.
  - apply set_entries_nil.
Qed.

(** After a run that passed both validations the root logger holds
    exactly one handler, on stdout, at DEBUG without a (non-empty) log
    directory and at ERROR with one: no handler adds another. *)
Theorem run_final_logger env inv :
  log_dir_ok env (inv_log_dir inv) = true ->
  isdigit (default "5000" (inv_port inv)) = true ->
  root_handlers (snd (run env inv)) =
    [{| h_sink := Stdout;
        h_level := match inv_log_dir inv with
                   | Some d => if String.eqb d "" then DEBUG else ERROR
                   | None => DEBUG
                   end |}].
Proof.
  intros Hl Hp. by destruct (run_valid_shape env inv Hl Hp) as (_ & _ & _ & ->).
Qed.

(* ------------------------------------------------------------------ *)
(** * Witnesses for the further properties *)

Lemma handler_creates_one_app_witness :
  exists rest,
    trace (snd (run all_dirs (devserver_inv "8080" true))) =
      trace (after_signal (devserver_inv "8080" true)) ++
      EHandlerEnter "devserver" ::
      ECreateApp "pypi_portal.config.Production"
        (bool_decide ("devserver" ∈ celery_commands)) :: rest /\
    (forall cfg no_sql, ECreateApp cfg no_sql ∉ rest).
Proof.
  apply (handler_creates_one_app all_dirs (devserver_inv "8080" true)).
  - apply (bool_decide_unpack _). vm_compute. exact I.
  - reflexivity.
  - reflexivity.
Defined.

Lemma tornadoserver_run_witness :
  run all_dirs {| inv_cmd := "tornadoserver"; inv_port := Some "8888";
                  inv_log_dir := Some "/var/log/pypi_portal"; inv_config_prod := false |} =
  (Ok tt,
   {| trace := [EOptionsParsed; ESetChosen "tornadoserver"; ESignalInstalled;
                EHandlerEnter "tornadoserver";
                ECreateApp "pypi_portal.config.Config" false;
                ELogMessages "8888"; EHttpBind "8888"; EHttpStart 0; EIOLoopStart];
      chosen := Some "tornadoserver"; root_level := DEBUG;
      root_handlers := [{| h_sink := Stdout; h_level := ERROR |}] |}).
Proof.
  apply (tornadoserver_run all_dirs (Some "/var/log/pypi_portal") "8888" false);
    reflexivity.
Defined.

Lemma celery_commands_run_witness :
  run all_dirs {| inv_cmd := "celerybeat"; inv_port := None; inv_log_dir := None;
                  inv_config_prod := true |} =
  (Ok tt,
   {| trace := [EOptionsParsed; ESetChosen "celerybeat"; ESignalInstalled;
                EHandlerEnter "celerybeat";
                ECreateApp "pypi_portal.config.Production" true;
                ECeleryLoggingOff; EAppCtxEnter;
                ECeleryMain ["celery"; "beat"; "-C"; "--pidfile=celery_beat.pid"];
                EAppCtxExit];
      chosen := Some "celerybeat"; root_level := DEBUG;
      root_handlers := [{| h_sink := Stdout; h_level := DEBUG |}] |}).
Proof.
  apply (celery_commands_run all_dirs "celerybeat" None true).
  - apply (bool_decide_unpack _). vm_compute. exact I.
  - reflexivity.
Defined.

Lemma unregistered_command_attribute_error_witness :
  fst (run_module_registering ["devserver"; "create_all"] all_dirs
         (docopt_options shell_inv) init_state) = Raise (AttributeError "chosen") /\
  handler_entries (trace (snd (run_module_registering ["devserver"; "create_all"] all_dirs
                                 (docopt_options shell_inv) init_state))) = [] /\
  root_handlers (snd (run_module_registering ["devserver"; "create_all"] all_dirs
                        (docopt_options shell_inv) init_state))
    = [{| h_sink := Stdout; h_level := console_level (inv_log_dir shell_inv) |}].
Proof.
  apply (unregistered_command_attribute_error all_dirs shell_inv ["devserver"; "create_all"]).
  - repeat constructor; apply (bool_decide_unpack _); vm_compute; exact I.
  - apply (bool_decide_unpack _). vm_compute. exact I.
  - reflexivity.
  - reflexivity.
Defined.

Lemma unknown_registration_aborts_witness :
  fst (run_module_registering (["devserver"] ++ "runserver" :: ["shell"]) all_dirs
         (docopt_options shell_inv) init_state)
    = Raise (KeyError ("Cannot register " +:+ "runserver" +:+
                       ", not mentioned in docstring/docopt.")) /\
  (ESignalInstalled ∉
     trace (snd (run_module_registering (["devserver"] ++ "runserver" :: ["shell"]) all_dirs
                   (docopt_options shell_inv) init_state))) /\
  root_handlers (snd (run_module_registering (["devserver"] ++ "runserver" :: ["shell"])
                        all_dirs (docopt_options shell_inv) init_state)) = [] /\
  handler_entries (trace (snd (run_module_registering (["devserver"] ++ "runserver" :: ["shell"])
                                 all_dirs (docopt_options shell_inv) init_state))) = [].
Proof.
  apply (unknown_registration_aborts all_dirs shell_inv ["devserver"] "runserver" ["shell"]).
  - repeat constructor; apply (bool_decide_unpack _); vm_compute; exact I.
  - vm_compute. reflexivity.
Defined.

Lemma run_final_logger_witness :
  root_handlers (snd (run all_dirs missing_dir_inv)) =
    [{| h_sink := Stdout;
        h_level := match inv_log_dir missing_dir_inv with
                   | Some d => if String.eqb d "" then DEBUG else ERROR
                   | None => DEBUG
                   end |}].
Proof. apply (run_final_logger all_dirs missing_dir_inv); reflexivity. Defined.
